(** * unipackage/rpc: the EVM capability interface

    A shallow embedding of [src/evm/interface/index.ts]: the options type,
    the module-level default, the signatures and documented results of
    [IEVM], and the run-time guard [isEvmTransactionOptions]. *)

From Stdlib Require Import ZArith Lia Bool List Ascii String.
From stdpp Require Import base option list gmap strings.

Set Warnings "-register-all,-clear-no-such-hyp".
Open Scope string_scope.

(** ** JavaScript values, [typeof] and property reads *)

Module Js.

(** The values a TypeScript [any] can hold at run time.  Numbers carry an
    integer payload: the guard below only ever looks at their [typeof]. *)
Inductive jsval : Type :=
| JUndefined
| JNull
| JBoolean (b : bool)
| JNumber (n : Z)
| JBigInt (n : Z)
| JString (s : string)
| JSymbol (description : string)
| JFunction (name : string)
| JObject (props : gmap string jsval)
| JArray (elems : list jsval).

(** What a JavaScript expression completes with: a value, or a throw. *)
Inductive JsError : Type :=
| TypeError (message : string).

Inductive Completion (A : Type) : Type :=
| Normal (a : A)
| Throw (e : JsError).
Arguments Normal {A} a.
Arguments Throw {A} e.

Definition bind {A B} (c : Completion A) (k : A -> Completion B) : Completion B :=
  match c with
  | Normal a => k a
  | Throw e => Throw e
  end.

(** [a && b]: [b] is evaluated only when [a] completes with [true]. *)
Definition and_also (a b : Completion bool) : Completion bool :=
  bind a (fun x => if x then b else Normal false).

(** [a || b]: [b] is evaluated only when [a] completes with [false]. *)
Definition or_else (a b : Completion bool) : Completion bool :=
  bind a (fun x => if x then Normal true else b).

(** The [typeof] operator. [typeof null] is ["object"]. *)
Definition typeof (v : jsval) : string :=
  match v with
  | JUndefined => "undefined"
  | JNull => "object"
  | JBoolean _ => "boolean"
  | JNumber _ => "number"
  | JBigInt _ => "bigint"
  | JString _ => "string"
  | JSymbol _ => "symbol"
  | JFunction _ => "function"
  | JObject _ => "object"
  | JArray _ => "object"
  end.

(** Canonical array indices: ["0"], ["1"], ..., no sign, no leading zero. *)
Definition digit_of (c : ascii) : option nat :=
  let n := nat_of_ascii c in
  if (48 <=? n)%nat && (n <=? 57)%nat then Some (n - 48)%nat else None.

Fixpoint digits_value (s : string) (acc : nat) : option nat :=
  match s with
  | EmptyString => Some acc
  | String c rest =>
      match digit_of c with
      | Some d => digits_value rest (10 * acc + d)%nat
      | None => None
      end
  end.

Definition array_index (key : string) : option nat :=
  match key with
  | EmptyString => None
  | String "0" EmptyString => Some 0%nat
  | String "0" _ => None
  | _ => digits_value key 0
  end.

(** The member read [v.key] (ordinary [[Get]]).  Reading a member of
    [null] or [undefined] throws a [TypeError].  Objects answer with their
    property or [undefined]; arrays answer [length] and their indices.
    [JObject props] is a plain object, one that inherits from the built-in
    prototype only (an object literal, a [JSON.parse] result): no member
    of the built-in prototypes bears a name that the code of this package
    reads, so they are left out, and objects with a prototype of their
    own are not among these values. *)
Definition get (v : jsval) (key : string) : Completion jsval :=
  match v with
  | JUndefined =>
      Throw (TypeError ("Cannot read properties of undefined (reading '" ++ key ++ "')"))
  | JNull =>
      Throw (TypeError ("Cannot read properties of null (reading '" ++ key ++ "')"))
  | JObject props => Normal (default JUndefined (props !! key))
  | JArray elems =>
      if String.eqb key "length" then Normal (JNumber (Z.of_nat (length elems)))
      else match array_index key with
           | Some i => Normal (default JUndefined (elems !! i))
           | None => Normal JUndefined
           end
  | JString s =>
      if String.eqb key "length" then Normal (JNumber (Z.of_nat (String.length s)))
      else Normal JUndefined
  | _ => Normal JUndefined
  end.

(** [typeof v.key === tag] *)
Definition typeof_member_is (v : jsval) (key tag : string) : Completion bool :=
  bind (get v key) (fun m => Normal (String.eqb (typeof m) tag)).

End Js.

Import Js.

Declare Scope js_scope.
Delimit Scope js_scope with js.
Notation "a &&& b" := (and_also a b) (at level 40, left associativity) : js_scope.
Notation "a ||| b" := (or_else a b) (at level 50, left associativity) : js_scope.

(** ** [src/evm/interface/index.ts] *)

(** [export enum EvmType { Web3, Ethers }] *)
Inductive EvmType : Type := Web3 | Ethers.

(** A numeric enum member is its position at run time. *)
Definition EvmType_value (t : EvmType) : jsval :=
  match t with
  | Web3 => JNumber 0
  | Ethers => JNumber 1
  end.

(** [value?: number | bigint | string] *)
Inductive TxValue : Type :=
| ValueNumber (n : Z)
| ValueBigint (n : Z)
| ValueString (s : string).

(** [export interface EvmTransactionOptions]: sixteen optional fields. *)
Record EvmTransactionOptions : Type := {
  from : option string;
  to : option string;
  value : option TxValue;
  gas : option Z;
  maxFeePerGas : option Z;
  maxPriorityFeePerGas : option Z;
  gasPrice : option Z;
  gasLimit : option Z;
  nonce : option Z;
  data : option string;
  type : option Z;
  input : option string;
  chainId : option Z;
  networkId : option Z;
  confirmations : option Z;
  privateKey : option string
}.

(** The object with no field set, [{}] at this type. *)
Definition noOptions : EvmTransactionOptions :=
  {| from := None; to := None; value := None; gas := None;
     maxFeePerGas := None; maxPriorityFeePerGas := None; gasPrice := None;
     gasLimit := None; nonce := None; data := None; type := None;
     input := None; chainId := None; networkId := None;
     confirmations := None; privateKey := None |}.

(** [export const defaultTransactionOptions: EvmTransactionOptions =
      { confirmations: 0 }] *)
Definition defaultTransactionOptions : EvmTransactionOptions :=
  {| from := None; to := None; value := None; gas := None;
     maxFeePerGas := None; maxPriorityFeePerGas := None; gasPrice := None;
     gasLimit := None; nonce := None; data := None; type := None;
     input := None; chainId := None; networkId := None;
     confirmations := Some 0%Z; privateKey := None |}.

(** The names of the sixteen fields, in declaration order. *)
Inductive Field : Type :=
| Ffrom | Fto | Fvalue | Fgas | FmaxFeePerGas | FmaxPriorityFeePerGas
| FgasPrice | FgasLimit | Fnonce | Fdata | Ftype | Finput | FchainId
| FnetworkId | Fconfirmations | FprivateKey.

Definition all_fields : list Field :=
  [Ffrom; Fto; Fvalue; Fgas; FmaxFeePerGas; FmaxPriorityFeePerGas;
   FgasPrice; FgasLimit; Fnonce; Fdata; Ftype; Finput; FchainId;
   FnetworkId; Fconfirmations; FprivateKey].

Definition field_name (f : Field) : string :=
  match f with
  | Ffrom => "from" | Fto => "to" | Fvalue => "value" | Fgas => "gas"
  | FmaxFeePerGas => "maxFeePerGas"
  | FmaxPriorityFeePerGas => "maxPriorityFeePerGas"
  | FgasPrice => "gasPrice" | FgasLimit => "gasLimit" | Fnonce => "nonce"
  | Fdata => "data" | Ftype => "type" | Finput => "input"
  | FchainId => "chainId" | FnetworkId => "networkId"
  | Fconfirmations => "confirmations" | FprivateKey => "privateKey"
  end.

Definition TxValue_js (v : TxValue) : jsval :=
  match v with
  | ValueNumber n => JNumber n
  | ValueBigint n => JBigInt n
  | ValueString s => JString s
  end.

(** The run-time content of one field of an options record. *)
Definition field_js (o : EvmTransactionOptions) (f : Field) : option jsval :=
  match f with
  | Ffrom => JString <$> from o
  | Fto => JString <$> to o
  | Fvalue => TxValue_js <$> value o
  | Fgas => JNumber <$> gas o
  | FmaxFeePerGas => JNumber <$> maxFeePerGas o
  | FmaxPriorityFeePerGas => JNumber <$> maxPriorityFeePerGas o
  | FgasPrice => JNumber <$> gasPrice o
  | FgasLimit => JNumber <$> gasLimit o
  | Fnonce => JNumber <$> nonce o
  | Fdata => JString <$> data o
  | Ftype => JNumber <$> type o
  | Finput => JString <$> input o
  | FchainId => JNumber <$> chainId o
  | FnetworkId => JNumber <$> networkId o
  | Fconfirmations => JNumber <$> confirmations o
  | FprivateKey => JString <$> privateKey o
  end.

(** Setting field [f] of the record on an object under construction: a
    field that is absent from the record adds no property. *)
Definition add_field (o : EvmTransactionOptions) (f : Field)
    (props : gmap string jsval) : gmap string jsval :=
  match field_js o f with
  | Some v => <[field_name f := v]> props
  | None => props
  end.

(** The properties of the run-time object that holds a record. *)
Definition options_props (o : EvmTransactionOptions) : gmap string jsval :=
  foldr (add_field o) ∅ all_fields.

Definition options_js (o : EvmTransactionOptions) : jsval :=
  JObject (options_props o).

(** [export function isEvmTransactionOptions(obj: any): boolean], conjunct
    by conjunct. *)
Definition isEvmTransactionOptions (obj : jsval) : Completion bool :=
  (Normal (String.eqb (typeof obj) "object") &&&
   (typeof_member_is obj "from" "undefined" ||| typeof_member_is obj "from" "string") &&&
   (typeof_member_is obj "to" "undefined" ||| typeof_member_is obj "to" "string") &&&
   (typeof_member_is obj "value" "undefined" |||
    typeof_member_is obj "value" "number" |||
    typeof_member_is obj "value" "string" |||
    typeof_member_is obj "value" "bigint") &&&
   (typeof_member_is obj "gas" "undefined" ||| typeof_member_is obj "gas" "number") &&&
   (typeof_member_is obj "maxFeePerGas" "undefined" |||
    typeof_member_is obj "maxFeePerGas" "number") &&&
   (typeof_member_is obj "maxPriorityFeePerGas" "undefined" |||
    typeof_member_is obj "maxPriorityFeePerGas" "number") &&&
   (typeof_member_is obj "gasPrice" "undefined" |||
    typeof_member_is obj "gasPrice" "number") &&&
   (typeof_member_is obj "gasLimit" "undefined" |||
    typeof_member_is obj "gasLimit" "number") &&&
   (typeof_member_is obj "nonce" "undefined" ||| typeof_member_is obj "nonce" "number") &&&
   (typeof_member_is obj "data" "undefined" ||| typeof_member_is obj "data" "string") &&&
   (typeof_member_is obj "type" "undefined" ||| typeof_member_is obj "type" "number") &&&
   (typeof_member_is obj "input" "undefined" ||| typeof_member_is obj "input" "string") &&&
   (typeof_member_is obj "chainId" "undefined" |||
    typeof_member_is obj "chainId" "number") &&&
   (typeof_member_is obj "networkId" "undefined" |||
    typeof_member_is obj "networkId" "number") &&&
   (typeof_member_is obj "confirmations" "undefined" |||
    typeof_member_is obj "confirmations" "number") &&&
   (typeof_member_is obj "privateKey" "undefined" |||
    typeof_member_is obj "privateKey" "string"))%js.

(** The [typeof] results the guard admits for a field that is set. *)
Definition listed_types (f : Field) : list string :=
  match f with
  | Ffrom | Fto | Fdata | Finput | FprivateKey => ["string"]
  | Fvalue => ["number"; "string"; "bigint"]
  | _ => ["number"]
  end.

(** A fee-model conflict: the legacy price together with an EIP-1559 fee. *)
Definition feeModelConflict (o : EvmTransactionOptions) : bool :=
  bool_decide (is_Some (gasPrice o)) &&
  (bool_decide (is_Some (maxFeePerGas o)) ||
   bool_decide (is_Some (maxPriorityFeePerGas o))).

(** Reading field [f] of [v] gives [undefined] or a value of a listed type. *)
Definition field_ok (v : jsval) (f : Field) : Prop :=
  exists m, get v (field_name f) = Normal m /\
            (typeof m = "undefined" \/ typeof m ∈ listed_types f).

(** [{ gasPrice: 1, maxFeePerGas: 2 }] *)
Definition conflictingOptions : EvmTransactionOptions :=
  {| from := None; to := None; value := None; gas := None;
     maxFeePerGas := Some 2%Z; maxPriorityFeePerGas := None;
     gasPrice := Some 1%Z;
     gasLimit := None; nonce := None; data := None; type := None;
     input := None; chainId := None; networkId := None;
     confirmations := None; privateKey := None |}.

#[global] Instance Field_eq_dec : EqDecision Field.
Proof. solve_decision. Defined.

(** ** The signatures of [export interface IEVM] *)

Module IEVM.

(** The sixteen members, in declaration order. *)
Inductive Operation : Type :=
| call
| decodeTxInputToEvmInput
| encodeEvmInputToTxinput
| encodeFunctionSignatureByAbi
| encodeFunctionSignatureByFuntionName
| generateWei
| getContract
| getContractAddress
| getContractABI
| getEvmType
| getProviderUrl
| getEtherProvider
| getWeb3
| send
| sendSigned
| sign.

Definition operations : list Operation :=
  [call; decodeTxInputToEvmInput; encodeEvmInputToTxinput;
   encodeFunctionSignatureByAbi; encodeFunctionSignatureByFuntionName;
   generateWei; getContract; getContractAddress; getContractABI;
   getEvmType; getProviderUrl; getEtherProvider; getWeb3; send;
   sendSigned; sign].

(** The TypeScript types that occur as return types. [TsNamed] stands for
    the types of the client libraries, [TsResult t] for [Result<t>]. *)
Inductive TsType : Type :=
| TsAny
| TsString
| TsBigint
| TsNull
| TsUndefined
| TsNamed (name : string)
| TsArray (elem : TsType)
| TsUnion (a b : TsType)
| TsPromise (t : TsType)
| TsResult (t : TsType).

(** [export interface EvmOutput<T> extends Result<T> {}] *)
Definition EvmOutput (t : TsType) : TsType := TsResult t.

(** [export interface EvmInput extends InputParams {}] *)
Definition EvmInputT : TsType := TsNamed "InputParams".

(** The declared return type of each member. *)
Definition returnType (op : Operation) : TsType :=
  match op with
  | call => TsPromise (EvmOutput TsAny)
  | decodeTxInputToEvmInput => EvmOutput EvmInputT
  | encodeEvmInputToTxinput => EvmOutput TsString
  | encodeFunctionSignatureByAbi => TsResult TsString
  | encodeFunctionSignatureByFuntionName => EvmOutput TsString
  | generateWei => TsUnion TsString TsBigint
  | getContract =>
      TsUnion (TsUnion (TsNamed "Contract<AbiFunctionFragment[]>")
                       (TsNamed "EtherContract")) TsNull
  | getContractAddress => TsString
  | getContractABI =>
      TsUnion (TsArray (TsNamed "AbiFunctionFragment"))
              (TsArray (TsNamed "JsonFragment"))
  | getEvmType => TsNamed "EvmType"
  | getProviderUrl => TsUnion TsString TsUndefined
  | getEtherProvider => TsUnion (TsNamed "ethers.AbstractProvider") TsNull
  | getWeb3 => TsUnion (TsNamed "Web3") TsNull
  | send => TsPromise (EvmOutput TsAny)
  | sendSigned => TsPromise (EvmOutput TsAny)
  | sign => TsPromise (EvmOutput (TsUnion (TsNamed "Web3Signature") TsString))
  end.

(** A type is the tagged result shape, or a promise of it. *)
Definition isResultShape (t : TsType) : bool :=
  match t with
  | TsResult _ => true
  | TsPromise (TsResult _) => true
  | _ => false
  end.

(** A type has [null] or [undefined] among its values. *)
Fixpoint admitsNullish (t : TsType) : bool :=
  match t with
  | TsAny | TsNull | TsUndefined => true
  | TsUnion a b => admitsNullish a || admitsNullish b
  | _ => false
  end.



(** The seven members the interface documents as accessors. *)
Definition isAccessor (op : Operation) : bool :=
  match op with
  | getContract | getContractAddress | getContractABI | getEvmType
  | getProviderUrl | getEtherProvider | getWeb3 => true
  | _ => false
  end.

End IEVM.

#[global] Instance Operation_eq_dec : EqDecision IEVM.Operation.
Proof. solve_decision. Defined.

(** ** Reading the guard *)

(** What the read [v.key] gives when it does not throw. *)
Definition member (v : jsval) (key : string) : jsval :=
  match get v key with
  | Normal m => m
  | Throw _ => JUndefined
  end.

(** One parenthesised disjunction of the guard: the [typeof] of field [f]
    of [v] is ["undefined"] or one of the listed types. *)
Definition field_okb (v : jsval) (f : Field) : bool :=
  existsb (String.eqb (typeof (member v (field_name f))))
          ("undefined" :: listed_types f).

(** [{ ...a, ...b }]: the properties of [b], then those of [a] that [b]
    does not have. *)
Definition spread (a b : gmap string jsval) : gmap string jsval := b ∪ a.

(** The content of a field of a given declared type, read off a value. *)
Definition as_string (m : jsval) : option string :=
  match m with JString s => Some s | _ => None end.

Definition as_number (m : jsval) : option Z :=
  match m with JNumber n => Some n | _ => None end.

Definition as_value (m : jsval) : option TxValue :=
  match m with
  | JNumber n => Some (ValueNumber n)
  | JBigInt n => Some (ValueBigint n)
  | JString s => Some (ValueString s)
  | _ => None
  end.

(** Using a value at the type [EvmTransactionOptions], as a caller does
    once the guard has answered [true]: field by field. *)
Definition options_of (v : jsval) : EvmTransactionOptions :=
  {| from := as_string (member v (field_name Ffrom));
     to := as_string (member v (field_name Fto));
     value := as_value (member v (field_name Fvalue));
     gas := as_number (member v (field_name Fgas));
     maxFeePerGas := as_number (member v (field_name FmaxFeePerGas));
     maxPriorityFeePerGas := as_number (member v (field_name FmaxPriorityFeePerGas));
     gasPrice := as_number (member v (field_name FgasPrice));
     gasLimit := as_number (member v (field_name FgasLimit));
     nonce := as_number (member v (field_name Fnonce));
     data := as_string (member v (field_name Fdata));
     type := as_number (member v (field_name Ftype));
     input := as_string (member v (field_name Finput));
     chainId := as_number (member v (field_name FchainId));
     networkId := as_number (member v (field_name FnetworkId));
     confirmations := as_number (member v (field_name Fconfirmations));
     privateKey := as_string (member v (field_name FprivateKey)) |}.
(** * Properties *)

(** ** The options guard *)


Lemma field_name_inj f g : field_name f = field_name g -> f = g.
Proof. destruct f, g; simpl; intros H; first [reflexivity | discriminate H]. Qed.

Lemma all_fields_complete f : f ∈ all_fields.
Proof. destruct f; unfold all_fields; set_solver. Qed.

Section OptionsObject.
Variable o : EvmTransactionOptions.

Lemma props_lookup_fold (l : list Field) (f : Field) :
  NoDup l ->
  foldr (add_field o) ∅ l !! field_name f = if decide (f ∈ l) then field_js o f else None.
Proof.
  induction l as [|g l IH]; intros Hnd.
  - simpl. rewrite lookup_empty. destruct (decide (f ∈ [])); [set_solver | reflexivity].
  - destruct (proj1 (list.NoDup_cons g l) Hnd) as [Hg Hnd']. simpl. unfold add_field at 1.
    destruct (decide (f = g)) as [->|Hne].
    + rewrite decide_True by set_solver.
      destruct (field_js o g) eqn:E.
      * by rewrite lookup_insert_eq.
      * rewrite IH by done. by rewrite decide_False.
    + assert (field_name g <> field_name f) by (intros E; apply Hne; symmetry; by apply field_name_inj).
      destruct (field_js o g) eqn:E.
      * rewrite lookup_insert_ne by done. rewrite IH by done.
        destruct (decide (f ∈ l)) as [Hin|Hnin];
          [rewrite decide_True by set_solver | rewrite decide_False by set_solver];
          reflexivity.
      * rewrite IH by done.
        destruct (decide (f ∈ l)) as [Hin|Hnin];
          [rewrite decide_True by set_solver | rewrite decide_False by set_solver];
          reflexivity.
Qed.

Lemma options_props_lookup (f : Field) :
  options_props o !! field_name f = field_js o f.
Proof.
  unfold options_props.
  transitivity (if decide (f ∈ all_fields) then field_js o f else None).
  - apply props_lookup_fold.
    unfold all_fields. repeat (apply list.NoDup_cons; split; [set_solver|]). apply NoDup_nil_2.
  - rewrite decide_True; [reflexivity | apply all_fields_complete].
Qed.
End OptionsObject.

(** *** The guard, conjunct by conjunct *)

Lemma member_check_one (v m : jsval) (key t : string) :
  get v key = Normal m ->
  typeof m = "undefined" \/ typeof m = t ->
  (typeof_member_is v key "undefined" ||| typeof_member_is v key t)%js = Normal true.
Proof.
  intros Hget Hty. unfold or_else, typeof_member_is. rewrite Hget. simpl.
  destruct Hty as [-> | ->]; simpl.
  - reflexivity.
  - destruct (String.eqb t "undefined"); [reflexivity|].
    simpl. by rewrite String.eqb_refl.
Qed.

Lemma member_check_value (v m : jsval) :
  get v "value" = Normal m ->
  typeof m = "undefined" \/ typeof m ∈ ["number"; "string"; "bigint"] ->
  (typeof_member_is v "value" "undefined" ||| typeof_member_is v "value" "number" |||
   typeof_member_is v "value" "string" ||| typeof_member_is v "value" "bigint")%js
  = Normal true.
Proof.
  intros Hget Hty. unfold or_else, typeof_member_is. rewrite Hget. simpl.
  destruct Hty as [-> | Hin]; [reflexivity|].
  repeat (apply elem_of_cons in Hin as [-> | Hin]; [reflexivity|]).
  by apply elem_of_nil in Hin.
Qed.

(** Every object-typed value whose sixteen reads are well typed passes. *)
Lemma guard_accepts (v : jsval) :
  typeof v = "object" -> (forall f, field_ok v f) ->
  isEvmTransactionOptions v = Normal true.
Proof.
  intros Hobj Hall. unfold isEvmTransactionOptions. rewrite Hobj.
  change (String.eqb "object" "object") with true.
  assert (Hc : forall f t, listed_types f = [t] ->
            (typeof_member_is v (field_name f) "undefined" |||
             typeof_member_is v (field_name f) t)%js = Normal true).
  { intros f t Hl. destruct (Hall f) as (m & Hm & Hty).
    apply (member_check_one v m _ _ Hm).
    destruct Hty as [Hty | Hty]; [by left | right].
    rewrite Hl in Hty. apply elem_of_cons in Hty as [Hty | Hty]; [exact Hty|].
    by apply elem_of_nil in Hty. }
  pose proof (Hc Ffrom _ eq_refl) as H1. pose proof (Hc Fto _ eq_refl) as H2.
  pose proof (Hc Fgas _ eq_refl) as H3. pose proof (Hc FmaxFeePerGas _ eq_refl) as H4.
  pose proof (Hc FmaxPriorityFeePerGas _ eq_refl) as H5.
  pose proof (Hc FgasPrice _ eq_refl) as H6. pose proof (Hc FgasLimit _ eq_refl) as H7.
  pose proof (Hc Fnonce _ eq_refl) as H8. pose proof (Hc Fdata _ eq_refl) as H9.
  pose proof (Hc Ftype _ eq_refl) as H10. pose proof (Hc Finput _ eq_refl) as H11.
  pose proof (Hc FchainId _ eq_refl) as H12. pose proof (Hc FnetworkId _ eq_refl) as H13.
  pose proof (Hc Fconfirmations _ eq_refl) as H14.
  pose proof (Hc FprivateKey _ eq_refl) as H15.
  cbn [field_name] in *.
  rewrite H1, H2, H3, H4, H5, H6, H7, H8, H9, H10, H11, H12, H13, H14, H15.
  destruct (Hall Fvalue) as (m & Hm & Hty).
  rewrite (member_check_value v m Hm Hty). reflexivity.
Qed.

Lemma and_also_true (a b : Completion bool) :
  (a &&& b)%js = Normal true -> a = Normal true /\ b = Normal true.
Proof. destruct a as [[|]|]; simpl; intros H; split; congruence. Qed.

Lemma member_check_one_inv (v : jsval) (key t : string) :
  (typeof_member_is v key "undefined" ||| typeof_member_is v key t)%js = Normal true ->
  exists m, get v key = Normal m /\ (typeof m = "undefined" \/ typeof m = t).
Proof.
  unfold or_else, typeof_member_is. destruct (get v key) as [m|e]; simpl; [|discriminate].
  intros H. exists m. split; [reflexivity|].
  destruct (String.eqb_spec (typeof m) "undefined") as [E|_]; [by left|].
  simpl in H. destruct (String.eqb_spec (typeof m) t) as [E|_]; [by right | discriminate].
Qed.

Lemma member_check_value_inv (v : jsval) :
  (typeof_member_is v "value" "undefined" ||| typeof_member_is v "value" "number" |||
   typeof_member_is v "value" "string" ||| typeof_member_is v "value" "bigint")%js
  = Normal true ->
  exists m, get v "value" = Normal m /\
            (typeof m = "undefined" \/ typeof m ∈ ["number"; "string"; "bigint"]).
Proof.
  unfold or_else, typeof_member_is. destruct (get v "value") as [m|e]; simpl; [|discriminate].
  intros H. exists m. split; [reflexivity|].
  destruct (String.eqb_spec (typeof m) "undefined") as [E|_]; [by left|]. right.
  simpl in H.
  destruct (String.eqb_spec (typeof m) "number") as [->|_]; [set_solver|]. simpl in H.
  destruct (String.eqb_spec (typeof m) "string") as [->|_]; [set_solver|]. simpl in H.
  destruct (String.eqb_spec (typeof m) "bigint") as [->|_]; [set_solver | discriminate].
Qed.

(** Conversely, a value that passes is object-typed and reads well. *)
Lemma guard_accepts_inv (v : jsval) :
  isEvmTransactionOptions v = Normal true ->
  typeof v = "object" /\ forall f, field_ok v f.
Proof.
  unfold isEvmTransactionOptions. intros H.
  repeat (apply and_also_true in H as [H ?]).
  split.
  - injection H as H. by apply String.eqb_eq.
  - intros f. unfold field_ok.
    destruct f; cbn [field_name listed_types];
      try (match goal with
           | Hm : (typeof_member_is v ?k "undefined" ||| typeof_member_is v ?k ?t)%js = _
             |- exists m, get v ?k = _ /\ _ =>
               destruct (member_check_one_inv v k t Hm) as (m & Hg & [Hu | Ht]);
               exists m; split; [exact Hg | | exact Hg | ];
               [by left | right; rewrite Ht; set_solver]
           end).
    by apply member_check_value_inv.
Qed.

Lemma array_reads_undefined (elems : list jsval) (f : Field) :
  get (JArray elems) (field_name f) = Normal JUndefined.
Proof. destruct f; reflexivity. Qed.

Lemma options_reads (o : EvmTransactionOptions) (f : Field) :
  get (options_js o) (field_name f) = Normal (default JUndefined (field_js o f)).
Proof. simpl. by rewrite options_props_lookup. Qed.

Lemma options_field_ok (o : EvmTransactionOptions) (f : Field) :
  field_ok (options_js o) f.
Proof.
  exists (default JUndefined (field_js o f)). split; [apply options_reads|].
  destruct o; destruct f; simpl;
    match goal with |- context [?g <$> ?x] => destruct x as [y|]; simpl end;
    try (by left); right; try destruct y; simpl; set_solver.
Qed.

(** ** Claims about the guard and the default options *)

(** C2, as stated, fails: the object [{ gasPrice: 1, maxFeePerGas: 2 }] sets
    both fee models and the guard answers [true] for it. *)
Lemma fee_conflict_is_accepted :
  feeModelConflict conflictingOptions = true /\
  isEvmTransactionOptions (options_js conflictingOptions) = Normal true /\
  isEvmTransactionOptions (options_js conflictingOptions) <> Normal false.
Proof. split; [reflexivity|]. split; [vm_compute; reflexivity | vm_compute; discriminate]. Qed.

(** C2 (amended): the guard makes no fee-model check. It answers [true] for
    every value of the options type, whether or not the legacy [gasPrice]
    is set together with [maxFeePerGas] or [maxPriorityFeePerGas]. *)
Theorem guard_ignores_fee_model (o : EvmTransactionOptions) :
  isEvmTransactionOptions (options_js o) = Normal true.
Proof. apply guard_accepts; [reflexivity | apply options_field_ok]. Qed.

(** C8: [typeof null] is ["object"], so the guard goes on to read
    [null.from], which throws a [TypeError]; it does not return [false]. *)
Theorem guard_throws_on_null :
  typeof JNull = "object" /\
  isEvmTransactionOptions JNull
    = Throw (TypeError "Cannot read properties of null (reading 'from')") /\
  isEvmTransactionOptions JNull <> Normal false.
Proof. split; [reflexivity|]. split; [reflexivity | discriminate]. Qed.

(** C9: the guard checks field types only and asks for no field. Every
    value whose [typeof] is ["object"] and whose sixteen listed fields each
    read as [undefined] or as a value of the listed type is accepted, and
    nothing else is; so the empty object and every array are accepted. (No
    field of [null] can be read, so [null] is not such a value.) *)
Theorem guard_checks_types_only :
  (forall v, typeof v = "object" -> (forall f, field_ok v f) ->
             isEvmTransactionOptions v = Normal true) /\
  (forall v, isEvmTransactionOptions v = Normal true ->
             typeof v = "object" /\ forall f, field_ok v f) /\
  isEvmTransactionOptions (JObject ∅) = Normal true /\
  (forall elems, isEvmTransactionOptions (JArray elems) = Normal true).
Proof.
  split; [exact guard_accepts|]. split; [exact guard_accepts_inv|]. split.
  - apply guard_accepts; [reflexivity|]. intros f. exists JUndefined.
    split; [|by left]. simpl. by rewrite lookup_empty.
  - intros elems. apply guard_accepts; [reflexivity|]. intros f. exists JUndefined.
    split; [apply array_reads_undefined | by left].
Qed.

(** The theorem above at a concrete value: [{ from: "0xabc", nonce: 7 }]. *)
Lemma guard_checks_types_only_witness :
  isEvmTransactionOptions
    (JObject (<["from" := JString "0xabc"]> (<["nonce" := JNumber 7]> ∅)))
  = Normal true.
Proof.
  apply (proj1 guard_checks_types_only); [reflexivity|].
  intros f. destruct f;
    (eexists; split; [vm_compute; reflexivity|]);
    first [left; reflexivity | right; simpl; set_solver].
Defined.

(** C10: the module-level default is exactly [{ confirmations: 0 }]: its
    [confirmations] field is the number [0], no other field is set, and the
    run-time object has that one property. *)
Theorem default_options_only_confirmations :
  confirmations defaultTransactionOptions = Some 0%Z /\
  (forall f, field_js defaultTransactionOptions f
             = if decide (f = Fconfirmations) then Some (JNumber 0) else None) /\
  options_props defaultTransactionOptions = {[ "confirmations" := JNumber 0 ]}.
Proof.
  split; [reflexivity|]. split.
  - intros f. destruct f; reflexivity.
  - reflexivity.
Qed.

(** ** The declared signatures *)

(** C1, as stated, fails: [generateWei] is declared to return
    [string | bigint] and [getContractAddress] to return [string]; neither
    is the tagged result nor a promise of it. *)
Lemma generateWei_returns_no_result :
  IEVM.returnType IEVM.generateWei = IEVM.TsUnion IEVM.TsString IEVM.TsBigint /\
  IEVM.isResultShape (IEVM.returnType IEVM.generateWei) = false /\
  IEVM.isResultShape (IEVM.returnType IEVM.getContractAddress) = false.
Proof. repeat split. Qed.

(** C1 (amended): of the sixteen members of the interface, exactly eight
    are declared to return the tagged result: [call], [send], [sendSigned]
    and [sign], and no other member, return a promise of it;
    [decodeTxInputToEvmInput], [encodeEvmInputToTxinput],
    [encodeFunctionSignatureByAbi] and
    [encodeFunctionSignatureByFuntionName], and no other member, return it
    directly; [generateWei] returns [string | bigint] and the seven
    accessors return bare values. *)
Theorem result_shape_by_operation :
  (forall op,
     (exists t, IEVM.returnType op = IEVM.TsPromise (IEVM.TsResult t)) <->
     op ∈ [IEVM.call; IEVM.send; IEVM.sendSigned; IEVM.sign]) /\
  (forall op,
     (exists t, IEVM.returnType op = IEVM.TsResult t) <->
     op ∈ [IEVM.decodeTxInputToEvmInput; IEVM.encodeEvmInputToTxinput;
           IEVM.encodeFunctionSignatureByAbi;
           IEVM.encodeFunctionSignatureByFuntionName]) /\
  (forall op,
     IEVM.isResultShape (IEVM.returnType op) = true <->
     op ∈ [IEVM.call; IEVM.decodeTxInputToEvmInput; IEVM.encodeEvmInputToTxinput;
           IEVM.encodeFunctionSignatureByAbi;
           IEVM.encodeFunctionSignatureByFuntionName;
           IEVM.send; IEVM.sendSigned; IEVM.sign]) /\
  (forall op,
     IEVM.isResultShape (IEVM.returnType op) = false <->
     op = IEVM.generateWei \/ IEVM.isAccessor op = true) /\
  IEVM.returnType IEVM.generateWei = IEVM.TsUnion IEVM.TsString IEVM.TsBigint.
Proof.
  split; [|split; [|split; [|split]]].
  - intros op. split.
    + intros [t Ht]. destruct op; simpl in Ht; first [discriminate Ht | set_solver].
    + intros H. repeat (apply elem_of_cons in H as [-> | H]; [eexists; reflexivity|]).
      by apply elem_of_nil in H.
  - intros op. split.
    + intros [t Ht]. destruct op; simpl in Ht; first [discriminate Ht | set_solver].
    + intros H. repeat (apply elem_of_cons in H as [-> | H]; [eexists; reflexivity|]).
      by apply elem_of_nil in H.
  - intros op. split.
    + destruct op; simpl; intros H; first [discriminate H | set_solver].
    + intros H. repeat (apply elem_of_cons in H as [-> | H]; [reflexivity|]).
      by apply elem_of_nil in H.
  - intros op. split.
    + destruct op; simpl; intros H; first [discriminate H | by left | by right].
    + intros [-> | H]; [reflexivity|]. destruct op; simpl in *; congruence.
  - reflexivity.
Qed.

(** ** What the accessors hand back before initialization *)




(** ** More about the guard *)

Lemma get_member (v : jsval) (key : string) :
  v <> JNull -> v <> JUndefined -> get v key = Normal (member v key).
Proof.
  intros Hn Hu. unfold member. destruct v; try congruence; simpl;
    repeat match goal with |- context [if ?b then _ else _] => destruct b end;
    repeat match goal with |- context [match ?x with _ => _ end] => destruct x end;
    reflexivity.
Qed.

Lemma and_also_normal (a b : bool) :
  (Normal a &&& Normal b)%js = Normal (a && b).
Proof. by destruct a. Qed.

Lemma or_else_normal (a b : bool) :
  (Normal a ||| Normal b)%js = Normal (a || b).
Proof. by destruct a. Qed.

Lemma typeof_member_normal (v : jsval) (key tag : string) :
  v <> JNull -> v <> JUndefined ->
  typeof_member_is v key tag = Normal (String.eqb (typeof (member v key)) tag).
Proof. intros Hn Hu. unfold typeof_member_is. by rewrite get_member. Qed.

(** Off [null], the guard is a boolean: the object test and the sixteen
    field tests. *)
Lemma guard_decides (v : jsval) :
  v <> JNull ->
  isEvmTransactionOptions v
  = Normal (String.eqb (typeof v) "object" && forallb (field_okb v) all_fields).
Proof.
  intros Hn.
  assert (v = JUndefined \/ v <> JUndefined) as [-> | Hu]
    by (destruct v; first [by left | by right]); [reflexivity|].
  unfold isEvmTransactionOptions.
  rewrite !(typeof_member_normal v _ _ Hn Hu).
  rewrite !or_else_normal, !and_also_normal.
  unfold field_okb. cbn [forallb all_fields existsb listed_types field_name].
  rewrite ?orb_false_r, ?andb_true_r, ?andb_assoc, ?orb_assoc. reflexivity.
Qed.

Lemma forallb_eq {A} (f g : A -> bool) (l : list A) :
  (forall x, f x = g x) -> forallb f l = forallb g l.
Proof. intros H. induction l as [|x l IH]; simpl; [reflexivity | by rewrite H, IH]. Qed.

Lemma guard_object (props : gmap string jsval) :
  isEvmTransactionOptions (JObject props)
  = Normal (forallb (field_okb (JObject props)) all_fields).
Proof. by rewrite guard_decides. Qed.

Lemma field_okb_spec (v : jsval) (f : Field) :
  field_okb v f = true <->
  typeof (member v (field_name f)) ∈ "undefined" :: listed_types f.
Proof.
  unfold field_okb. rewrite existsb_exists. split.
  - intros (t & Hin & Ht). apply String.eqb_eq in Ht as ->. by apply list_elem_of_In.
  - intros Hin. exists (typeof (member v (field_name f))).
    split; [by apply list_elem_of_In | apply String.eqb_refl].
Qed.

Lemma guard_object_true (props : gmap string jsval) :
  isEvmTransactionOptions (JObject props) = Normal true <->
  forall f, field_okb (JObject props) f = true.
Proof.
  rewrite guard_object. split.
  - intros H f. injection H as H.
    apply (proj1 (forallb_forall (field_okb (JObject props)) all_fields) H).
    apply list_elem_of_In, all_fields_complete.
  - intros H. f_equal. apply forallb_forall. intros f _. apply H.
Qed.

(** The guard throws on [null] and on nothing else. *)
Theorem guard_throws_only_on_null (v : jsval) :
  (exists e, isEvmTransactionOptions v = Throw e) <-> v = JNull.
Proof.
  split.
  - intros [e He]. destruct v; try reflexivity;
      rewrite guard_decides in He by discriminate; discriminate He.
  - intros ->. eexists. reflexivity.
Qed.

(** A value that is not object-typed is turned down with [false] before
    any member is read: also [undefined], whose members cannot be read, and
    a function, which can carry all sixteen fields. *)
Theorem guard_rejects_non_objects (v : jsval) :
  typeof v <> "object" -> isEvmTransactionOptions v = Normal false.
Proof.
  intros Hty. unfold isEvmTransactionOptions.
  destruct (String.eqb_spec (typeof v) "object") as [E|_]; [by destruct Hty|].
  reflexivity.
Qed.

Lemma guard_rejects_non_objects_witness :
  isEvmTransactionOptions JUndefined = Normal false.
Proof. apply guard_rejects_non_objects. discriminate. Defined.

(** One field of a wrong type is enough for [false], whatever else the
    object holds: the number as a string, a [null], a nested object. *)
Theorem guard_rejects_wrong_field_type
    (props : gmap string jsval) (f : Field) (w : jsval) :
  typeof w ∉ "undefined" :: listed_types f ->
  isEvmTransactionOptions (JObject (<[field_name f := w]> props)) = Normal false.
Proof.
  intros Hw. rewrite guard_object. f_equal. apply not_true_is_false. intros H.
  pose proof (proj1 (forallb_forall (field_okb _) all_fields) H f
                (proj1 (list_elem_of_In _ _) (all_fields_complete f))) as Hf.
  clear H. rename Hf into H.
  apply field_okb_spec in H. unfold member in H. simpl in H.
  rewrite lookup_insert_eq in H. by apply Hw.
Qed.

Lemma guard_rejects_wrong_field_type_witness :
  isEvmTransactionOptions
    (JObject (<["gasPrice" := JNull]> {[ "from" := JString "0xabc" ]}))
  = Normal false.
Proof.
  apply (guard_rejects_wrong_field_type {[ "from" := JString "0xabc" ]} FgasPrice JNull).
  simpl. set_solver.
Defined.

(** A property whose name is not one of the sixteen has no say. *)
Theorem guard_ignores_other_properties
    (props : gmap string jsval) (key : string) (w : jsval) :
  (forall f, field_name f <> key) ->
  isEvmTransactionOptions (JObject (<[key := w]> props))
  = isEvmTransactionOptions (JObject props).
Proof.
  intros Hkey. rewrite !guard_object. f_equal. apply forallb_eq. intros f.
  unfold field_okb, member. simpl. by rewrite lookup_insert_ne.
Qed.

Lemma guard_ignores_other_properties_witness :
  isEvmTransactionOptions
    (JObject (<["gasprice" := JBoolean true]> {[ "nonce" := JNumber 1 ]}))
  = isEvmTransactionOptions (JObject {[ "nonce" := JNumber 1 ]}).
Proof.
  apply guard_ignores_other_properties. intros f. destruct f; discriminate.
Defined.

(** On a plain object, one that inherits none of the sixteen fields, a
    property set to [undefined] counts as one that is not there. *)
Theorem guard_reads_undefined_as_absent (props : gmap string jsval) (key : string) :
  isEvmTransactionOptions (JObject (<[key := JUndefined]> props))
  = isEvmTransactionOptions (JObject (delete key props)).
Proof.
  rewrite !guard_object. f_equal. apply forallb_eq. intros f.
  unfold field_okb, member. simpl.
  destruct (decide (key = field_name f)) as [-> | Hne].
  - by rewrite lookup_insert_eq, lookup_delete_eq.
  - by rewrite lookup_insert_ne, lookup_delete_ne.
Qed.

(** The guard looks at the [typeof] of the fields and at nothing else of
    them: two values of the same [typeof] whose fields have the same
    [typeof] get the same answer. *)
Theorem guard_sees_types_only (v1 v2 : jsval) :
  typeof v1 = typeof v2 ->
  (forall f, typeof (member v1 (field_name f)) = typeof (member v2 (field_name f))) ->
  v1 <> JNull -> v2 <> JNull ->
  isEvmTransactionOptions v1 = isEvmTransactionOptions v2.
Proof.
  intros Hty Hf H1 H2. rewrite !guard_decides by done. rewrite Hty.
  do 2 f_equal. apply forallb_eq. intros f. unfold field_okb. by rewrite Hf.
Qed.

Lemma guard_sees_types_only_witness :
  isEvmTransactionOptions (JObject {[ "gas" := JNumber (-1) ]})
  = isEvmTransactionOptions (JObject {[ "gas" := JNumber 21000 ]}).
Proof.
  apply guard_sees_types_only; [reflexivity | | discriminate | discriminate].
  intros f. destruct f; reflexivity.
Defined.

Lemma field_okb_spread (a b : gmap string jsval) (f : Field) :
  field_okb (JObject (spread a b)) f
  = match b !! field_name f with
    | Some _ => field_okb (JObject b) f
    | None => field_okb (JObject a) f
    end.
Proof.
  unfold field_okb, member, spread. simpl.
  destruct (b !! field_name f) as [w|] eqn:E.
  - by rewrite (lookup_union_Some_l b a _ w E).
  - by rewrite (lookup_union_r b a _ E).
Qed.

(** Merging two accepted objects, as [{ ...a, ...b }] does for defaults
    and the caller's options, gives an accepted object. *)
Theorem guard_accepts_spread (a b : gmap string jsval) :
  isEvmTransactionOptions (JObject a) = Normal true ->
  isEvmTransactionOptions (JObject b) = Normal true ->
  isEvmTransactionOptions (JObject (spread a b)) = Normal true.
Proof.
  rewrite !guard_object_true. intros Ha Hb f. rewrite field_okb_spread.
  destruct (b !! field_name f); [apply Hb | apply Ha].
Qed.

Lemma guard_accepts_spread_witness :
  isEvmTransactionOptions
    (JObject (spread (options_props defaultTransactionOptions)
                     {[ "from" := JString "0x15B2896f76Cee4E2C567e7bC671bB701D7339B30";
                        "confirmations" := JNumber 2 ]}))
  = Normal true.
Proof.
  apply guard_accepts_spread; vm_compute; reflexivity.
Defined.

(** No field is required: taking any property away from an accepted plain
    object, one that inherits none of the sixteen fields, leaves it
    accepted. *)
Theorem guard_accepts_after_delete (props : gmap string jsval) (key : string) :
  isEvmTransactionOptions (JObject props) = Normal true ->
  isEvmTransactionOptions (JObject (delete key props)) = Normal true.
Proof.
  rewrite !guard_object_true. intros H f. specialize (H f).
  unfold field_okb, member in *. simpl in *.
  destruct (decide (key = field_name f)) as [-> | Hne].
  - by rewrite lookup_delete_eq.
  - by rewrite lookup_delete_ne.
Qed.

Lemma guard_accepts_after_delete_witness :
  isEvmTransactionOptions
    (JObject (delete "confirmations" (options_props defaultTransactionOptions)))
  = Normal true.
Proof. apply guard_accepts_after_delete. vm_compute. reflexivity. Defined.

(** Setting a field of an accepted object keeps it accepted exactly when
    the new value is [undefined] or of a type listed for that field. *)
Theorem guard_after_setting_a_field
    (props : gmap string jsval) (f : Field) (w : jsval) :
  isEvmTransactionOptions (JObject props) = Normal true ->
  (isEvmTransactionOptions (JObject (<[field_name f := w]> props)) = Normal true <->
   typeof w ∈ "undefined" :: listed_types f).
Proof.
  rewrite !guard_object_true. intros H. split.
  - intros Hins. specialize (Hins f). apply field_okb_spec in Hins.
    unfold member in Hins. simpl in Hins. by rewrite lookup_insert_eq in Hins.
  - intros Hw g. destruct (decide (g = f)) as [-> | Hne].
    + apply field_okb_spec. unfold member. simpl. by rewrite lookup_insert_eq.
    + specialize (H g). unfold field_okb, member in *. simpl in *.
      rewrite lookup_insert_ne; [exact H|].
      intros E. apply Hne. symmetry. by apply field_name_inj.
Qed.

Lemma guard_after_setting_a_field_witness :
  isEvmTransactionOptions
    (JObject (<["value" := JBigInt 1000000000000000000]>
                (options_props defaultTransactionOptions))) = Normal true <->
  typeof (JBigInt 1000000000000000000) ∈ "undefined" :: listed_types Fvalue.
Proof.
  apply (guard_after_setting_a_field (options_props defaultTransactionOptions) Fvalue).
  vm_compute. reflexivity.
Defined.

Lemma member_options (o : EvmTransactionOptions) (f : Field) :
  member (options_js o) (field_name f) = default JUndefined (field_js o f).
Proof. unfold member. by rewrite options_reads. Qed.

Lemma typed_member_back (v : jsval) (f : Field) :
  field_ok v f ->
  default JUndefined (field_js (options_of v) f) = member v (field_name f).
Proof.
  intros (m & Hget & Hty). unfold member. 
  destruct f; cbn [field_name] in *; simpl; unfold member; rewrite Hget;
    (destruct Hty as [Hty | Hty];
     [ destruct m; try discriminate Hty; reflexivity
     | destruct m; simpl in Hty;
       repeat (apply elem_of_cons in Hty as [Hty | Hty]; [try discriminate Hty|]);
       try (by apply elem_of_nil in Hty); reflexivity ]).
Qed.

(** The guard is sound for the interface type: a value it accepts reads,
    on each of the sixteen fields, as the options record taken from it. *)
Theorem guard_sound_for_options_type (v : jsval) (f : Field) :
  isEvmTransactionOptions v = Normal true ->
  get (options_js (options_of v)) (field_name f) = get v (field_name f).
Proof.
  intros H. apply guard_accepts_inv in H as [_ H]. specialize (H f).
  rewrite options_reads, (typed_member_back v f H).
  destruct H as (m & Hget & _). unfold member. by rewrite Hget.
Qed.

Lemma guard_sound_for_options_type_witness :
  get (options_js (options_of (JArray [JNumber 1; JNumber 2]))) (field_name Fgas)
  = get (JArray [JNumber 1; JNumber 2]) (field_name Fgas).
Proof. apply guard_sound_for_options_type. vm_compute. reflexivity. Defined.

(** An options record survives the trip through its run-time object. *)
Theorem options_of_options_js (o : EvmTransactionOptions) :
  options_of (options_js o) = o.
Proof.
  unfold options_of. rewrite !member_options. destruct o; simpl.
  f_equal;
    match goal with |- _ (default JUndefined (_ <$> ?x)) = _ => destruct x as [y|] end;
    try destruct y; reflexivity.
Qed.

(** Of the sixteen members of the interface, the ones declared to return
    [null] or [undefined] are the four handle and URL accessors; the
    address, the ABI and the backend tag are declared without either. *)
Theorem nullable_accessors (op : IEVM.Operation) :
  IEVM.admitsNullish (IEVM.returnType op) = true <->
  op ∈ [IEVM.getContract; IEVM.getProviderUrl; IEVM.getEtherProvider; IEVM.getWeb3].
Proof.
  split.
  - destruct op; simpl; intros H; first [discriminate H | set_solver].
  - intros H. repeat (apply elem_of_cons in H as [-> | H]; [reflexivity|]).
    by apply elem_of_nil in H.
Qed.
